(** * Vite-React-Deploy: the counter component and the deployment recipe

    The development embeds

    - [src/App.jsx]: the [App] component, one [useState] cell holding a
      JavaScript number, one click handler, one rendered element tree;
    - [README.md]: the GitHub Actions workflow [deploy.yml] (section 3) and
      the [vite.config.js] of section 6.

    JavaScript numbers are IEEE-754 binary64 values; they are modelled with
    the specification of binary floating point that ships with the
    Standard Library ([SpecFloat], precision 53, maximal exponent 1024). *)

From Stdlib Require Import ZArith NArith Lia Ascii String Floats.SpecFloat.
From stdpp Require Import base gmap strings list.

Open Scope Z_scope.

(** ** JavaScript numbers *)

Module Number.

Definition number : Type := spec_float.

Definition prec : Z := 53.
Definition emax : Z := 1024.

(** The binary [+] of two numbers. *)
Definition add (x y : number) : number := SFadd prec emax x y.

(** A numeric literal denoting the integer [z]: the double nearest to it. *)
Definition of_Z (z : Z) : number := binary_normalize prec emax z 0 false.

Definition zero : number := of_Z 0.
Definition one : number := of_Z 1.

(** [<=] on numbers. *)
Definition leb (x y : number) : bool := SFleb x y.

(** The integer a number denotes, when it denotes one. *)
Definition to_Z (x : number) : option Z :=
  match x with
  | S754_zero _ => Some 0
  | S754_finite s m (Zpos p) => Some (cond_Zopp s (Zpos (Pos.shiftl m (Npos p))))
  | S754_finite s m Z0 => Some (cond_Zopp s (Zpos m))
  | S754_finite s m (Zneg p) =>
      if Zpos m mod 2 ^ Zpos p =? 0
      then Some (cond_Zopp s (Zpos m / 2 ^ Zpos p))
      else None
  | S754_infinity _ | S754_nan => None
  end.

(** The largest count the counter can reach: 2^53. *)
Definition max_exact : Z := 2 ^ 53.

(** The double that holds a positive integer of at most 53 bits: the
    mantissa is the integer shifted up to exactly 53 bits. *)
Definition canon (q : positive) : number :=
  let d := digits2_pos q in
  S754_finite false (Pos.shiftl q (Z.to_N (prec - Zpos d))) (Zpos d - prec).

End Number.

Import Number.

Open Scope string_scope.
Open Scope Z_scope.

(** ** React: one [useState] cell

    React is a dependency of the repository; this is the part of its state
    hook that [App.jsx] relies on.  The hook keeps the last rendered value
    and a queue of pending updates.  The setter accepts a new value or a
    function of the previous value; the queue is folded over the stored
    value at the next render. *)

Module React.

Inductive action : Type :=
| SetValue (v : number)
| SetFn (f : number -> number).

Record hook : Type := Hook { memoizedState : number; queue : list action }.

(** [typeof action === 'function' ? action(state) : action] *)
Definition basicStateReducer (state : number) (a : action) : number :=
  match a with
  | SetFn f => f state
  | SetValue v => v
  end.

Definition mountState (initialState : number) : hook :=
  Hook initialState [].

Definition updateState (h : hook) : hook :=
  Hook (fold_left basicStateReducer (queue h) (memoizedState h)) [].

(** The setter returned by [useState]: it enqueues, it does not render. *)
Definition dispatchSetState (a : action) (h : hook) : hook :=
  Hook (memoizedState h) (queue h ++ [a]).

(** [useState(initialState)]: on the first render ([cur = None]) the cell
    is created from the initial state, on later renders the pending
    updates are applied.  Returns the value, the setter and the cell. *)
Definition useState (initialState : number) (cur : option hook)
  : number * (action -> hook -> hook) * hook :=
  let h := match cur with
           | None => mountState initialState
           | Some h => updateState h
           end in
  (memoizedState h, dispatchSetState, h).

(** The payload of a DOM click event. *)
Record mouse_event : Type := MouseEvent { clientX : Z; clientY : Z; detail : Z }.

Definition handler : Type := mouse_event -> hook -> hook.

Inductive prop_value : Type :=
| PString (s : string)
| PImport (module : string)
| PHandler (h : handler).

#[local] Unset Elimination Schemes.
Inductive vnode : Type :=
| VText (s : string)
| VNumber (n : number)
| VElement (tag : string) (props : list (string * prop_value)) (children : list vnode)
| VFragment (children : list vnode).
#[local] Set Elimination Schemes.

Definition children_of (v : vnode) : list vnode :=
  match v with
  | VElement _ _ cs | VFragment cs => cs
  | VText _ | VNumber _ => []
  end.

(** The node reached by following child indices from the root. *)
Fixpoint subtree (path : list nat) (v : vnode) : option vnode :=
  match path with
  | [] => Some v
  | i :: rest =>
      match children_of v !! i with
      | Some c => subtree rest c
      | None => None
      end
  end.

(** The tree with the node at [path] replaced by [new]. *)
Fixpoint replace_at (path : list nat) (new : vnode) (v : vnode) : vnode :=
  match path with
  | [] => new
  | i :: rest =>
      match v with
      | VElement tag props cs => VElement tag props (alter (replace_at rest new) i cs)
      | VFragment cs => VFragment (alter (replace_at rest new) i cs)
      | VText _ | VNumber _ => v
      end
  end.

Fixpoint lookup_prop (name : string) (props : list (string * prop_value))
  : option prop_value :=
  match props with
  | [] => None
  | (k, v) :: rest => if String.eqb k name then Some v else lookup_prop name rest
  end.

Definition props_of (v : vnode) : list (string * prop_value) :=
  match v with
  | VElement _ props _ => props
  | _ => []
  end.

End React.

Import React.

(** ** [src/App.jsx] *)

Module AppJsx.

Definition reactLogo : prop_value := PImport "./assets/react.svg".
Definition viteLogo : prop_value := PImport "/vite.svg".

Definition App (cur : option hook) : vnode * hook :=
  let '(count, setCount, h) := useState zero cur in
  (VFragment
     [ VElement "div" []
         [ VElement "a"
             [ ("href", PString "https://vitejs.dev");
               ("target", PString "_blank");
               ("rel", PString "noreferrer") ]
             [ VElement "img"
                 [ ("src", viteLogo);
                   ("className", PString "logo");
                   ("alt", PString "Vite logo") ] [] ];
           VElement "a"
             [ ("href", PString "https://react.dev");
               ("target", PString "_blank");
               ("rel", PString "noreferrer") ]
             [ VElement "img"
                 [ ("src", reactLogo);
                   ("className", PString "logo react");
                   ("alt", PString "React logo") ] [] ] ];
       VElement "h1" [] [ VText "Demo Website" ];
       VElement "div" [ ("className", PString "card") ]
         [ VElement "p" []
             [ VText "This is a demonstration website to show how to deploy a Vite+React app using GitHub Actions." ];
           VElement "p" [ ("className", PString "read-the-docs") ]
             [ VText "Click the logos to learn more about Vite and React" ];
           VElement "button"
             [ ("onClick",
                PHandler (fun _ => setCount (SetFn (fun count => add count one)))) ]
             [ VText "Count is "; VNumber count ] ] ],
   h).

(** Where the pieces sit in the rendered tree. *)
Definition button_path : list nat := [2; 2]%nat.
Definition label_path : list nat := [2; 2; 1]%nat.

End AppJsx.

Import AppJsx.

(** ** The page: a mounted [App] *)

Module Page.

Record page : Type := { fiber : hook; screen : vnode }.

Definition commit (r : vnode * hook) : page :=
  {| fiber := snd r; screen := fst r |}.

(** Loading the page mounts [App]; nothing survives from an earlier view. *)
Definition load : page := commit (App None).

(** A re-render applies the pending updates and replaces the screen. *)
Definition rerender (p : page) : page := commit (App (Some (fiber p))).

Definition onClick_of (v : vnode) : option handler :=
  match subtree button_path v with
  | Some b =>
      match lookup_prop "onClick" (props_of b) with
      | Some (PHandler h) => Some h
      | _ => None
      end
  | None => None
  end.

(** A click runs the handler of the button that is on screen. *)
Definition dispatch_click (ev : mouse_event) (p : page) : page :=
  match onClick_of (screen p) with
  | Some h => {| fiber := h ev (fiber p); screen := screen p |}
  | None => p
  end.

(** One activation as the browser delivers it: the handler runs and React
    re-renders before the next event. *)
Definition activate (ev : mouse_event) (p : page) : page :=
  rerender (dispatch_click ev p).

(** The number shown in the button label. *)
Definition displayed (p : page) : option number :=
  match subtree label_path (screen p) with
  | Some (VNumber n) => Some n
  | _ => None
  end.

(** The shown number as an integer. *)
Definition displayed_Z (p : page) : option Z :=
  match displayed p with
  | Some n => to_Z n
  | None => None
  end.

(** [n] activations after a load. *)
Definition clicks (ev : mouse_event) (n : N) : page :=
  N.iter n (activate ev) load.

(** Finer schedules: clicks may pile up before a re-render. *)
Inductive event : Type :=
| Click (ev : mouse_event)
| Render.

Definition apply_event (p : page) (e : event) : page :=
  match e with
  | Click ev => dispatch_click ev p
  | Render => rerender p
  end.

Definition play (es : list event) (p : page) : page := fold_left apply_event es p.

Fixpoint click_count (es : list event) : N :=
  match es with
  | [] => 0%N
  | Click _ :: rest => N.succ (click_count rest)
  | Render :: rest => click_count rest
  end.

(** What the user does in the browser tab. *)
Inductive user_event : Type :=
| UClick (ev : mouse_event)
| UReload.

Definition user_step (p : page) (u : user_event) : page :=
  match u with
  | UClick ev => activate ev p
  | UReload => load
  end.

Definition session (us : list user_event) : page := fold_left user_step us load.

(** States a page can be in. *)
Inductive reachable : page -> Prop :=
| reach_load : reachable load
| reach_click ev p : reachable p -> reachable (dispatch_click ev p)
| reach_render p : reachable p -> reachable (rerender p).

End Page.

Import Page.

(** ** Names used in the statements *)

(** The updater the click handler passes to [setCount]. *)
Definition incr : number -> number := fun count => add count one.

(** The tree [App] returns when the cell holds [c]. *)
Definition view (c : number) : vnode := fst (App (Some (Hook c []))).

(** A page showing [c] with [m] clicks not yet rendered. *)
Definition pending_page (c : number) (m : nat) : page :=
  {| fiber := Hook c (repeat (SetFn incr) m); screen := view c |}.

(** A click event to run examples with. *)
Definition ev0 : mouse_event := MouseEvent 0 0 1.

(** ** [README.md], section 3: [.github/workflows/deploy.yml] *)

Module Workflow.

(** Expressions of [if:] conditions. *)

Inductive expr : Type :=
| EContext (name : string)
| EString (s : string)
| EEq (a b : expr).

(** One entry of [steps:]; [with_] is the [with:] mapping. *)
Record step : Type := Step {
  step_name : string;
  uses : option string;
  run : option string;
  with_ : list (string * string)
}.

Record job : Type := Job {
  job_id : string;
  job_name : string;
  needs : list string;
  runs_on : string;
  job_if : option expr;
  steps : list step
}.

Record workflow : Type := Workflow {
  wf_name : string;
  on_push_branches : list string;
  jobs : list job
}.

Definition build_job : job :=
  {| job_id := "build";
     job_name := "Build";
     needs := [];
     runs_on := "ubuntu-latest";
     job_if := None;
     steps :=
       [ Step "Checkout repo" (Some "actions/checkout@v4") None [];
         Step "Setup Node" (Some "actions/setup-node@v4") None [("node-version", "20")];
         Step "Install dependencies" (Some "bahmutov/npm-install@v1") None [];
         Step "Build project" None (Some "npm run build") [];
         Step "Upload production-ready build files" (Some "actions/upload-artifact@v4") None
           [("name", "production-files"); ("path", "./dist")] ] |}.

Definition deploy_job : job :=
  {| job_id := "deploy";
     job_name := "Deploy";
     needs := ["build"];
     runs_on := "ubuntu-latest";
     job_if := Some (EEq (EContext "github.ref") (EString "refs/heads/main"));
     steps :=
       [ Step "Download artifact" (Some "actions/download-artifact@v4") None
           [("name", "production-files"); ("path", "./dist")];
         Step "Deploy to GitHub Pages" (Some "peaceiris/actions-gh-pages@v4") None
           [("github_token", "${{ secrets.GITHUB_TOKEN }}"); ("publish_dir", "./dist")] ] |}.

Definition deploy_yml : workflow :=
  {| wf_name := "Deploy";
     on_push_branches := ["main"];
     jobs := [build_job; deploy_job] |}.

End Workflow.
Import Workflow.

(** ** GitHub Actions: how a workflow file is run

    The platform is not part of the repository; this is the behaviour its
    documentation gives to the keys that [deploy.yml] uses.

    - [on.push.branches]: the workflow runs for a push whose ref is
      [refs/heads/<branch>] for a listed branch (the one pattern here has
      no glob character).
    - [needs]: a job starts only after the jobs it needs concluded with
      success; otherwise it is skipped.
    - [if]: the job is skipped when the expression is false; [==] on
      strings ignores case.
    - Steps run in order on a runner with an empty workspace; the first
      failing step fails the job and the remaining steps do not start.
    - Artifacts live in storage shared by the jobs of one run. *)

Module Actions.

Record push_event : Type := Push { ref : string; sha : string }.

(** What a directory holds, as far as the pipeline cares. *)
Inductive content : Type :=
| RepoFiles (commit : string)
| NodeModules
| SiteBundle (commit : string).

Record runner : Type := Runner {
  workspace : gmap string content;
  artifacts : gmap string content;
  gh_pages : option content
}.

Definition ascii_lower (c : ascii) : ascii :=
  let n := nat_of_ascii c in
  if (65 <=? n)%nat && (n <=? 90)%nat then ascii_of_nat (n + 32) else c.

Fixpoint lower (s : string) : string :=
  match s with
  | EmptyString => EmptyString
  | String c rest => String (ascii_lower c) (lower rest)
  end.

Inductive value : Type :=
| VStr (s : string)
| VBool (b : bool).

Fixpoint eval (ev : push_event) (e : expr) : value :=
  match e with
  | EContext name => if String.eqb name "github.ref" then VStr (ref ev) else VStr ""
  | EString s => VStr s
  | EEq a b =>
      match eval ev a, eval ev b with
      | VStr x, VStr y => VBool (String.eqb (lower x) (lower y))
      | VBool x, VBool y => VBool (Bool.eqb x y)
      | _, _ => VBool false
      end
  end.

Definition truthy (v : value) : bool :=
  match v with
  | VBool b => b
  | VStr s => negb (String.eqb s "")
  end.

Definition if_holds (ev : push_event) (c : option expr) : bool :=
  match c with
  | None => true
  | Some e => truthy (eval ev e)
  end.

Definition triggered (w : workflow) (ev : push_event) : bool :=
  existsb (fun b => String.eqb (ref ev) ("refs/heads/" ++ b)) (on_push_branches w).

Fixpoint input (name : string) (args : list (string * string)) : option string :=
  match args with
  | [] => None
  | (k, v) :: rest => if String.eqb k name then Some v else input name rest
  end.

Definition uses_is (s : step) (action : string) : bool :=
  match uses s with
  | Some u => String.eqb u action
  | None => false
  end.

Definition runs (s : step) (cmd : string) : bool :=
  match run s with
  | Some c => String.eqb c cmd
  | None => false
  end.

(** The effect of one step; [None] when the step fails.
    - checkout puts the pushed commit in the workspace;
    - npm-install needs the sources and creates [node_modules];
    - [npm run build] needs both and writes the site to [./dist];
    - upload-artifact stores the directory under the given name (a missing
      directory only warns);
    - download-artifact fails when no artifact has the given name;
    - actions-gh-pages publishes [publish_dir] to the [gh-pages] branch. *)
Definition exec_step (ev : push_event) (s : step) (r : runner) : option runner :=
  if uses_is s "actions/checkout@v4" then
    Some (Runner (<["." := RepoFiles (sha ev)]> (workspace r)) (artifacts r) (gh_pages r))
  else if uses_is s "bahmutov/npm-install@v1" then
    match workspace r !! "." with
    | Some (RepoFiles _) =>
        Some (Runner (<["./node_modules" := NodeModules]> (workspace r)) (artifacts r) (gh_pages r))
    | _ => None
    end
  else if runs s "npm run build" then
    match workspace r !! ".", workspace r !! "./node_modules" with
    | Some (RepoFiles c), Some NodeModules =>
        Some (Runner (<["./dist" := SiteBundle c]> (workspace r)) (artifacts r) (gh_pages r))
    | _, _ => None
    end
  else if uses_is s "actions/upload-artifact@v4" then
    match input "name" (with_ s), input "path" (with_ s) with
    | Some name, Some path =>
        match workspace r !! path with
        | Some c => Some (Runner (workspace r) (<[name := c]> (artifacts r)) (gh_pages r))
        | None => Some r
        end
    | _, _ => None
    end
  else if uses_is s "actions/download-artifact@v4" then
    match input "name" (with_ s), input "path" (with_ s) with
    | Some name, Some path =>
        match artifacts r !! name with
        | Some c => Some (Runner (<[path := c]> (workspace r)) (artifacts r) (gh_pages r))
        | None => None
        end
    | _, _ => None
    end
  else if uses_is s "peaceiris/actions-gh-pages@v4" then
    match input "publish_dir" (with_ s) with
    | Some dir =>
        match workspace r !! dir with
        | Some c => Some (Runner (workspace r) (artifacts r) (Some c))
        | None => None
        end
    | None => None
    end
  else Some r.

(** Whether the step at a given position of a job succeeds by itself
    (network, tools, permissions). *)
Definition oracle : Type := string -> nat -> bool.

Fixpoint run_steps (ev : push_event) (o : oracle) (jid : string) (i : nat)
    (ss : list step) (r : runner) : bool * list (string * string) * runner :=
  match ss with
  | [] => (true, [], r)
  | s :: rest =>
      match (if o jid i then exec_step ev s r else None) with
      | Some r' =>
          let '(ok, tr, r'') := run_steps ev o jid (S i) rest r' in
          (ok, (jid, step_name s) :: tr, r'')
      | None => (false, [(jid, step_name s)], r)
      end
  end.

Inductive conclusion : Type := Success | Failure | Skipped.

Record run_state : Type := RunState {
  conclusions : list (string * conclusion);
  trace : list (string * string);
  machine : runner
}.

Fixpoint conclusion_of (jid : string) (cs : list (string * conclusion)) : option conclusion :=
  match cs with
  | [] => None
  | (k, c) :: rest => if String.eqb k jid then Some c else conclusion_of jid rest
  end.

Definition succeeded (cs : list (string * conclusion)) (jid : string) : bool :=
  match conclusion_of jid cs with
  | Some Success => true
  | _ => false
  end.

(** Each job gets a new machine; artifacts and the published branch persist. *)
Definition fresh_runner (r : runner) : runner :=
  Runner ∅ (artifacts r) (gh_pages r).

Definition run_job (ev : push_event) (o : oracle) (acc : run_state) (j : job) : run_state :=
  if forallb (succeeded (conclusions acc)) (needs j) && if_holds ev (job_if j) then
    let '(ok, tr, r) := run_steps ev o (job_id j) 0 (steps j) (fresh_runner (machine acc)) in
    RunState (conclusions acc ++ [(job_id j, if ok then Success else Failure)])
             (trace acc ++ tr) r
  else
    RunState (conclusions acc ++ [(job_id j, Skipped)]) (trace acc) (machine acc).

Definition initial (pages : option content) : run_state :=
  RunState [] [] (Runner ∅ ∅ pages).

Definition run_workflow (w : workflow) (ev : push_event) (o : oracle)
    (pages : option content) : option run_state :=
  if triggered w ev
  then Some (fold_left (run_job ev o) (jobs w) (initial pages))
  else None.

End Actions.
Import Actions.

(** ** [README.md], sections 2, 5 and 6: repository name and base path *)

Module Vite.

(** Section 2: the repository is named [react-deploy-demo]. *)
Definition repository_name : string := "react-deploy-demo".
Definition remote_url : string :=
  "https://github.com/YOUR_USERNAME/react-deploy-demo.git".

(** Section 5: where GitHub Pages serves the site. *)
Definition pages_url : string := "https://YOUR_USERNAME.github.io/react-deploy-demo/".

(** Section 6: [vite.config.js]. *)
Record config : Type := { plugins : list string; base : string }.

Definition vite_config : config :=
  {| plugins := ["react()"]; base := "/react-deploy-demo/" |}.

(** The build prefixes every asset reference with [base]. *)
Definition asset_url (c : config) (file : string) : string :=
  String.append (base c) file.

(** FAQ: the router basename. *)
Definition router_basename : string := "/react-deploy-demo".

End Vite.

Import Vite.

(** An oracle under which every step succeeds by itself. *)
Definition all_ok : oracle := fun _ _ => true.

(** An oracle given by the outcomes of the build steps and of the deploy
    steps, by position. *)
Definition per_job (build deploy : list bool) : oracle :=
  fun jid i => nth i (if String.eqb jid "build" then build else deploy) true.

(** A push of commit [abc123] to [main]. *)
Definition push_main : push_event := Push "refs/heads/main" "abc123".

(** ** Measures used in further statements *)

(** How many clicks a history holds after its last reload. *)
Definition clicks_since_load (us : list user_event) : N :=
  fold_left (fun n u => match u with
                        | UClick _ => N.succ n
                        | UReload => 0%N
                        end) us 0%N.

(** All nodes of a tree, parents first. *)
Fixpoint nodes (v : vnode) : list vnode :=
  v :: match v with
       | VElement _ _ cs | VFragment cs => flat_map nodes cs
       | VText _ | VNumber _ => []
       end.

Definition is_tag (t : string) (v : vnode) : bool :=
  match v with
  | VElement tag _ _ => String.eqb tag t
  | _ => false
  end.

Definition string_prop (name : string) (v : vnode) : option string :=
  match lookup_prop name (props_of v) with
  | Some (PString s) => Some s
  | _ => None
  end.

Definition has_value (o : option string) (s : string) : bool :=
  match o with
  | Some x => String.eqb x s
  | None => false
  end.

(** A link that opens a new tab withholds the referrer. *)
Definition safe_link (v : vnode) : bool :=
  if is_tag "a" v && has_value (string_prop "target" v) "_blank"
  then has_value (string_prop "rel" v) "noreferrer"
  else true.

(** An image has a non-empty alternative text. *)
Definition has_alt (v : vnode) : bool :=
  if is_tag "img" v
  then match string_prop "alt" v with
       | Some s => negb (String.eqb s "")
       | None => false
       end
  else true.

Definition is_handler (kv : string * prop_value) : bool :=
  match kv.2 with
  | PHandler _ => true
  | _ => false
  end.

(** Event handlers attached anywhere in a tree, with the prop they sit on. *)
Definition handlers (v : vnode) : list string :=
  flat_map (fun n => map fst (List.filter is_handler (props_of n))) (nodes v).

(** The steps of a workflow in file order, as trace entries. *)
Definition planned (w : workflow) : list (string * string) :=
  flat_map (fun j => map (fun s => (job_id j, step_name s)) (steps j)) (jobs w).

(** Positions the oracle is asked about, in file order. *)
Definition positions (w : workflow) : list (string * nat) :=
  flat_map (fun j => imap (fun i _ => (job_id j, i)) (steps j)) (jobs w).

(** Index, in file order, of the first step the oracle fails. *)
Fixpoint first_failure (o : oracle) (ps : list (string * nat)) (n : nat)
  : option nat :=
  match ps with
  | [] => None
  | (jid, i) :: rest => if o jid i then first_failure o rest (S n) else Some n
  end.


(** ** Facts on the binary representation *)

Section Digits.

Lemma iter_pos_iter {A} (f : A -> A) (p : positive) (x : A) :
  SpecFloat.iter_pos f p x = Pos.iter f x p.
Proof.
  revert x; induction p as [p IH | p IH |]; intros x; simpl.
  - rewrite !IH, !Pos.iter_swap. reflexivity.
  - now rewrite !IH.
  - reflexivity.
Qed.

Lemma shiftl_succ (q : positive) (n : N) :
  Pos.shiftl q (N.succ n) = xO (Pos.shiftl q n).
Proof.
  destruct n as [| p]; [reflexivity |].
  unfold N.succ, Pos.shiftl. apply Pos.iter_succ.
Qed.

Lemma shiftl_add (q : positive) (n m : N) :
  Pos.shiftl (Pos.shiftl q n) m = Pos.shiftl q (n + m).
Proof.
  induction m as [| m IH] using N.peano_ind.
  - now rewrite N.add_0_r.
  - now rewrite N.add_succ_r, !shiftl_succ, IH.
Qed.

Lemma digits_shiftl (q : positive) (n : N) :
  Zpos (digits2_pos (Pos.shiftl q n)) = Zpos (digits2_pos q) + Z.of_N n.
Proof.
  induction n as [| n IH] using N.peano_ind.
  - change (Pos.shiftl q 0) with q. lia.
  - rewrite shiftl_succ. simpl digits2_pos. lia.
Qed.

Lemma Zpos_shiftl (q : positive) (n : N) :
  Zpos (Pos.shiftl q n) = Zpos q * 2 ^ Z.of_N n.
Proof.
  induction n as [| n IH] using N.peano_ind.
  - change (Pos.shiftl q 0) with q. simpl. lia.
  - rewrite shiftl_succ, N2Z.inj_succ, Z.pow_succ_r by lia.
    pose proof (Pos2Z.inj_xO (Pos.shiftl q n)). lia.
Qed.

(** [digits2_pos q] is the bit length of [q]. *)
Lemma digits_bounds (q : positive) :
  2 ^ (Zpos (digits2_pos q) - 1) <= Zpos q < 2 ^ Zpos (digits2_pos q).
Proof.
  induction q as [q IH | q IH |]; simpl digits2_pos.
  - rewrite Pos2Z.inj_succ. pose proof (Pos2Z.inj_xI q).
    replace (Z.succ (Zpos (digits2_pos q)) - 1)
      with (Z.succ (Zpos (digits2_pos q) - 1)) by lia.
    rewrite !Z.pow_succ_r by lia. lia.
  - rewrite Pos2Z.inj_succ. pose proof (Pos2Z.inj_xO q).
    replace (Z.succ (Zpos (digits2_pos q)) - 1)
      with (Z.succ (Zpos (digits2_pos q) - 1)) by lia.
    rewrite !Z.pow_succ_r by lia. lia.
  - simpl. lia.
Qed.

Lemma digits_le_53 (q : positive) :
  Zpos q < max_exact -> Zpos (digits2_pos q) <= 53.
Proof.
  intros H. destruct (digits_bounds q) as [Hlo _].
  destruct (Z_le_gt_dec (Zpos (digits2_pos q)) 53) as [|Hgt]; [assumption |].
  exfalso. unfold max_exact in H.
  assert (2 ^ 53 <= 2 ^ (Zpos (digits2_pos q) - 1))
    by (apply Z.pow_le_mono_r; lia).
  lia.
Qed.

(** Shifting right, one bit at a time, a mantissa whose low bits are all
    zero loses nothing: round and sticky bits stay clear. *)
Lemma shr_exact (q p : positive) :
  SpecFloat.iter_pos shr_1 p
    {| shr_m := Zpos (Pos.shiftl q (Npos p)); shr_r := false; shr_s := false |}
  = {| shr_m := Zpos q; shr_r := false; shr_s := false |}.
Proof.
  rewrite iter_pos_iter.
  induction p as [| p IH] using Pos.peano_ind.
  - reflexivity.
  - rewrite Pos.iter_succ_r.
    replace (Npos (Pos.succ p)) with (N.succ (Npos p)) by (simpl; reflexivity).
    rewrite shiftl_succ. simpl shr_1. exact IH.
Qed.

End Digits.

(** ** Rounding an integer of at most 53 bits is exact *)

Section Exact.

Variable r : positive.
Hypothesis Hr : Zpos (digits2_pos r) <= 53.

Local Abbreviation d := (Zpos (digits2_pos r)).
Local Abbreviation M := (Pos.shiftl r (Z.to_N (prec - d))).

Lemma canon_eq : canon r = S754_finite false M (d - prec).
Proof. reflexivity. Qed.

Lemma fexp_d : fexp prec emax d = d - 53.
Proof. unfold fexp, emin, prec, emax. lia. Qed.

Lemma digits_M : Zpos (digits2_pos M) = 53.
Proof. rewrite digits_shiftl. unfold prec. lia. Qed.

Lemma shr_fexp_shifted (n : N) :
  53 - d <= Z.of_N n ->
  shr_fexp prec emax (Zpos (Pos.shiftl r n)) (- Z.of_N n) loc_Exact
  = ({| shr_m := Zpos M; shr_r := false; shr_s := false |}, d - 53).
Proof.
  intros Hn. unfold shr_fexp. cbn [Zdigits2 shr_record_of_loc].
  rewrite digits_shiftl.
  replace (Zpos (digits2_pos r) + Z.of_N n + - Z.of_N n) with d by lia.
  rewrite fexp_d. unfold shr.
  destruct (d - 53 - - Z.of_N n) as [| p | p] eqn:E.
  - f_equal; [| lia].
    unfold prec. do 3 f_equal. lia.
  - f_equal; [| lia].
    replace n with (Z.to_N (prec - d) + Npos p)%N by (unfold prec; lia).
    rewrite <- shiftl_add. apply shr_exact.
  - lia.
Qed.

Lemma shr_fexp_canon :
  shr_fexp prec emax (Zpos M) (d - 53) loc_Exact
  = ({| shr_m := Zpos M; shr_r := false; shr_s := false |}, d - 53).
Proof.
  unfold shr_fexp. cbn [Zdigits2 shr_record_of_loc].
  rewrite digits_M.
  replace (53 + (d - 53)) with d by lia.
  rewrite fexp_d, Z.sub_diag. reflexivity.
Qed.

Lemma binary_round_aux_shifted (n : N) :
  53 - d <= Z.of_N n ->
  binary_round_aux prec emax false (Zpos (Pos.shiftl r n)) (- Z.of_N n) loc_Exact
  = canon r.
Proof.
  intros Hn. unfold binary_round_aux.
  rewrite (shr_fexp_shifted n Hn).
  cbn [shr_m loc_of_shr_record round_nearest_even].
  rewrite shr_fexp_canon. cbn [shr_m].
  replace (d - 53 <=? emax - prec) with true
    by (symmetry; apply Z.leb_le; unfold emax, prec; lia).
  reflexivity.
Qed.

(** The integer [r], given with [n] extra zero bits at exponent [-n],
    rounds to the double that holds [r]. *)
Lemma binary_round_shifted (n : N) :
  binary_round prec emax false (Pos.shiftl r n) (- Z.of_N n) = canon r.
Proof.
  unfold binary_round.
  rewrite digits_shiftl.
  replace (Zpos (digits2_pos r) + Z.of_N n + - Z.of_N n) with d by lia.
  rewrite fexp_d. unfold shl_align.
  destruct (d - 53 - - Z.of_N n) as [| p | p] eqn:E.
  - apply binary_round_aux_shifted. lia.
  - apply binary_round_aux_shifted. lia.
  - change (Pos.iter xO (Pos.shiftl r n) p)
      with (Pos.shiftl (Pos.shiftl r n) (Npos p)).
    rewrite shiftl_add.
    replace (d - 53) with (- Z.of_N (n + Npos p)) by lia.
    apply binary_round_aux_shifted. lia.
Qed.

End Exact.

(** ** Integer-valued numbers and [+ 1] *)

Section Successor.

Lemma of_Z_pos (q : positive) :
  Zpos q < max_exact -> of_Z (Zpos q) = canon q.
Proof.
  intros H. unfold of_Z, binary_normalize.
  change q with (Pos.shiftl q 0) at 1.
  change 0 with (- Z.of_N 0).
  apply binary_round_shifted, digits_le_53, H.
Qed.

Lemma of_Z_max : of_Z max_exact = S754_finite false (2 ^ 52) 1.
Proof. reflexivity. Qed.

Lemma one_eq : one = S754_finite false (2 ^ 52) (-52).
Proof. reflexivity. Qed.

Lemma to_Z_canon (q : positive) :
  Zpos q < max_exact -> to_Z (canon q) = Some (Zpos q).
Proof.
  intros H. apply digits_le_53 in H.
  unfold canon, to_Z, prec.
  destruct (Zpos (digits2_pos q) - 53) as [| p | p] eqn:E.
  - replace (53 - Zpos (digits2_pos q)) with 0 by lia. reflexivity.
  - lia.
  - replace (Z.to_N (53 - Zpos (digits2_pos q))) with (Npos p) by lia.
    rewrite Zpos_shiftl. cbn [Z.of_N].
    assert (0 < 2 ^ Zpos p) by (apply Z.pow_pos_nonneg; lia).
    rewrite Z.mod_mul, Z.div_mul by lia. reflexivity.
Qed.

Lemma to_Z_of_Z (k : Z) :
  0 <= k <= max_exact -> to_Z (of_Z k) = Some k.
Proof.
  intros [H0 H1].
  destruct (Z.eq_dec k max_exact) as [-> | Hne]; [reflexivity |].
  destruct k as [| q | q]; [reflexivity | | lia].
  rewrite of_Z_pos by lia. apply to_Z_canon. lia.
Qed.

Lemma shl_align_canon (q : positive) :
  Zpos (digits2_pos q) <= 53 ->
  fst (shl_align (Pos.shiftl q (Z.to_N (prec - Zpos (digits2_pos q))))
                 (Zpos (digits2_pos q) - prec) (-52))
  = Pos.shiftl q 52.
Proof.
  intros H. unfold shl_align, prec.
  destruct (-52 - (Zpos (digits2_pos q) - 53)) as [| p | p] eqn:E.
  - cbn [fst]. f_equal. lia.
  - lia.
  - cbn [fst].
    change (Pos.iter xO ?x p) with (Pos.shiftl x (Npos p)).
    rewrite shiftl_add. f_equal. lia.
Qed.

(** Below 2^53 the sum [count + 1] is the exact successor. *)
Lemma add_one_canon (q : positive) :
  Zpos q + 1 < max_exact -> add (canon q) one = canon (q + 1).
Proof.
  intros H. rewrite one_eq. unfold add, canon, SFadd.
  assert (Hd : Zpos (digits2_pos q) <= 53) by (apply digits_le_53; lia).
  rewrite Z.min_r by (unfold prec; lia).
  rewrite (shl_align_canon q Hd).
  change (fst (shl_align (2 ^ 52) (-52) (-52))) with (2 ^ 52)%positive.
  cbn [cond_Zopp].
  replace (Zpos (Pos.shiftl q 52) + Zpos (2 ^ 52))
    with (Zpos (Pos.shiftl (q + 1) 52))
    by (rewrite !Zpos_shiftl; lia).
  unfold binary_normalize.
  change (-52) with (- Z.of_N 52).
  apply binary_round_shifted, digits_le_53. lia.
Qed.

Lemma add_one_of_Z (k : Z) :
  0 <= k < max_exact -> add (of_Z k) one = of_Z (k + 1).
Proof.
  intros [H0 H1].
  destruct (Z.eq_dec (k + 1) max_exact) as [E | Hne].
  - replace k with (max_exact - 1) by lia. reflexivity.
  - destruct k as [| q | q]; [reflexivity | | lia].
    rewrite of_Z_pos by lia.
    replace (Zpos q + 1) with (Zpos (q + 1)) by lia.
    rewrite of_Z_pos by lia.
    apply add_one_canon. lia.
Qed.

(** At 2^53 the sum rounds back to 2^53 (ties to even). *)
Lemma add_one_max : add (of_Z max_exact) one = of_Z max_exact.
Proof. reflexivity. Qed.

(** Spot checks against what a JavaScript console prints. *)
Example add_2_1 : add (of_Z 2) one = of_Z 3.
Proof. reflexivity. Qed.

Example add_below_max :
  add (of_Z 9007199254740991) one = of_Z 9007199254740992.
Proof. reflexivity. Qed.

Example add_at_max :
  add (of_Z 9007199254740992) one = of_Z 9007199254740992.
Proof. reflexivity. Qed.

Example literal_above_max : of_Z 9007199254740993 = of_Z 9007199254740992.
Proof. reflexivity. Qed.

Example to_Z_max : to_Z (of_Z 9007199254740992) = Some 9007199254740992.
Proof. reflexivity. Qed.

End Successor.

(** ** The shape of every page *)

Section Shape.

Lemma max_exact_pos : 0 < max_exact.
Proof. reflexivity. Qed.

Lemma load_page : load = pending_page zero 0.
Proof. reflexivity. Qed.

Lemma click_page ev c m :
  dispatch_click ev (pending_page c m) = pending_page c (S m).
Proof.
  unfold dispatch_click, pending_page. cbn.
  unfold dispatchSetState. cbn.
  now rewrite <- repeat_cons.
Qed.

Lemma fold_incr (m : nat) (c : number) :
  fold_left basicStateReducer (repeat (SetFn incr) m) c = Nat.iter m incr c.
Proof.
  revert c; induction m as [| m IH]; intros c; [reflexivity |].
  cbn [repeat fold_left basicStateReducer].
  rewrite IH. symmetry. apply Nat.iter_succ_r.
Qed.

Lemma render_page c m :
  rerender (pending_page c m) = pending_page (Nat.iter m incr c) 0.
Proof.
  unfold rerender, pending_page, commit, view, App, useState, updateState.
  cbn [fiber queue memoizedState fst snd fold_left repeat].
  now rewrite fold_incr.
Qed.

(** Queued values, unlike queued functions, overwrite each other: several
    of them before one render count as a single update. *)
Lemma set_value_collapses (v c : number) (m : nat) :
  fold_left basicStateReducer (repeat (SetValue v) (S m)) c = v.
Proof.
  revert c; induction m as [| m IH]; intros c; [reflexivity |].
  change (repeat (SetValue v) (S (S m))) with (SetValue v :: repeat (SetValue v) (S m)).
  cbn [fold_left basicStateReducer]. apply IH.
Qed.

Lemma activate_page ev c :
  activate ev (pending_page c 0) = pending_page (incr c) 0.
Proof. unfold activate. now rewrite click_page, render_page. Qed.

Lemma displayed_page c m : displayed (pending_page c m) = Some c.
Proof. reflexivity. Qed.

Lemma clicks_page ev (n : N) :
  clicks ev n = pending_page (N.iter n incr zero) 0.
Proof.
  unfold clicks. induction n as [| n IH] using N.peano_ind.
  - reflexivity.
  - now rewrite !N.iter_succ, IH, activate_page.
Qed.

(** Counting up from an integer saturates at 2^53. *)
Lemma incr_of_Z (k : Z) :
  0 <= k <= max_exact -> incr (of_Z k) = of_Z (Z.min (k + 1) max_exact).
Proof.
  intros [H0 H1]. unfold incr.
  destruct (Z.eq_dec k max_exact) as [-> | Hne].
  - rewrite Z.min_r by lia. apply add_one_max.
  - rewrite Z.min_l by lia. apply add_one_of_Z. lia.
Qed.

Lemma nat_iter_incr (m : nat) (k : Z) :
  0 <= k <= max_exact ->
  Nat.iter m incr (of_Z k) = of_Z (Z.min (k + Z.of_nat m) max_exact).
Proof.
  intros Hk. induction m as [| m IH].
  - cbn [Nat.iter nat_rect]. f_equal. lia.
  - change (Nat.iter (S m) incr (of_Z k))
      with (incr (Nat.iter m incr (of_Z k))).
    rewrite IH, incr_of_Z by lia. f_equal. lia.
Qed.

Lemma N_iter_incr (n : N) :
  N.iter n incr zero = of_Z (Z.min (Z.of_N n) max_exact).
Proof.
  pose proof max_exact_pos.
  induction n as [| n IH] using N.peano_ind.
  - reflexivity.
  - rewrite N.iter_succ, IH, incr_of_Z by lia. f_equal. lia.
Qed.

(** Every reachable page shows an integer between 0 and 2^53 and holds
    nothing but pending increments. *)
Lemma reachable_shape (p : page) :
  reachable p ->
  exists (k : Z) (m : nat), 0 <= k <= max_exact /\ p = pending_page (of_Z k) m.
Proof.
  induction 1 as [| ev p _ (k & m & Hk & ->) | p _ (k & m & Hk & ->)].
  - exists 0, 0%nat. split; [pose proof max_exact_pos; lia | apply load_page].
  - exists k, (S m). split; [assumption | apply click_page].
  - exists (Z.min (k + Z.of_nat m) max_exact), 0%nat. split; [lia |].
    now rewrite render_page, nat_iter_incr.
Qed.

End Shape.

(** ** Order on integer-valued numbers *)

Section Order.

Lemma digits_mono (p q : positive) :
  Zpos p <= Zpos q -> Zpos (digits2_pos p) <= Zpos (digits2_pos q).
Proof.
  intros H.
  destruct (digits_bounds p) as [Hp _]. destruct (digits_bounds q) as [_ Hq].
  assert (Hlt : 2 ^ (Zpos (digits2_pos p) - 1) < 2 ^ Zpos (digits2_pos q)) by lia.
  apply Z.pow_lt_mono_r_iff in Hlt; lia.
Qed.

Lemma leb_canon (p q : positive) :
  Zpos p <= Zpos q -> leb (canon p) (canon q) = true.
Proof.
  intros H. pose proof (digits_mono p q H) as Hd.
  unfold leb, SFleb, canon, SFcompare.
  destruct (Z.compare_spec (Zpos (digits2_pos p) - prec) (Zpos (digits2_pos q) - prec))
    as [E | E | E]; [| reflexivity | lia].
  assert (E' : Zpos (digits2_pos p) = Zpos (digits2_pos q)) by lia.
  rewrite E'.
  change (Pos.compare_cont Eq ?x ?y) with (Pos.compare x y).
  destruct (Pos.compare_spec
              (Pos.shiftl p (Z.to_N (prec - Zpos (digits2_pos q))))
              (Pos.shiftl q (Z.to_N (prec - Zpos (digits2_pos q)))))
    as [_ | _ | Hgt]; [reflexivity | reflexivity |].
  exfalso. apply Pos2Z.pos_lt_pos in Hgt. rewrite !Zpos_shiftl in Hgt.
  assert (0 < 2 ^ Z.of_N (Z.to_N (prec - Zpos (digits2_pos q))))
    by (apply Z.pow_pos_nonneg; lia).
  nia.
Qed.

Lemma leb_canon_max (p : positive) :
  Zpos p < max_exact -> leb (canon p) (of_Z max_exact) = true.
Proof.
  intros H. apply digits_le_53 in H.
  rewrite of_Z_max. unfold leb, SFleb, canon, SFcompare.
  replace (Zpos (digits2_pos p) - prec ?= 1) with Lt; [reflexivity |].
  symmetry. apply Z.compare_lt_iff. unfold prec. lia.
Qed.

Lemma leb_of_Z (a b : Z) :
  0 <= a <= b -> b <= max_exact -> leb (of_Z a) (of_Z b) = true.
Proof.
  intros [H0 Hab] Hb.
  destruct (Z.eq_dec b max_exact) as [-> | Hne].
  - destruct (Z.eq_dec a max_exact) as [-> | Hna]; [reflexivity |].
    destruct a as [| p | p]; [reflexivity | | lia].
    rewrite of_Z_pos by lia. apply leb_canon_max. lia.
  - destruct b as [| q | q]; [| | lia].
    + replace a with 0 by lia. reflexivity.
    + rewrite (of_Z_pos q) by lia.
      destruct a as [| p | p]; [reflexivity | | lia].
      rewrite of_Z_pos by lia. now apply leb_canon.
Qed.

End Order.

(** ** Schedules and sessions *)

Section Runs.

Lemma nat_iter_N {A} (f : A -> A) (m : nat) (x : A) :
  Nat.iter m f x = N.iter (N.of_nat m) f x.
Proof.
  induction m as [| m IH]; [reflexivity |].
  rewrite Nat2N.inj_succ, N.iter_succ, <- IH. reflexivity.
Qed.

(** Whatever the schedule, a final re-render has applied the updater once
    per click. *)
Lemma play_page (es : list event) (c : number) (m : nat) :
  rerender (play es (pending_page c m))
  = pending_page (N.iter (click_count es + N.of_nat m) incr c) 0.
Proof.
  revert c m; induction es as [| [ev |] es IH]; intros c m.
  - cbn [play fold_left click_count]. rewrite render_page, nat_iter_N.
    reflexivity.
  - cbn [play fold_left apply_event click_count].
    rewrite click_page. fold (play es (pending_page c (S m))).
    rewrite IH. do 2 f_equal. lia.
  - cbn [play fold_left apply_event click_count].
    rewrite render_page. fold (play es (pending_page (Nat.iter m incr c) 0)).
    rewrite IH, nat_iter_N. change (N.of_nat 0) with 0%N.
    rewrite N.add_0_r. f_equal. symmetry. apply N.iter_add.
Qed.

Lemma activate_clicks (ev : mouse_event) (n : N) :
  activate ev (clicks ev n) = clicks ev (N.succ n).
Proof. unfold clicks. now rewrite N.iter_succ. Qed.

Lemma displayed_clicks (ev : mouse_event) (n : N) :
  displayed (clicks ev n) = Some (of_Z (Z.min (Z.of_N n) max_exact)).
Proof. now rewrite clicks_page, displayed_page, N_iter_incr. Qed.

Lemma displayed_Z_clicks (ev : mouse_event) (n : N) :
  displayed_Z (clicks ev n) = Some (Z.min (Z.of_N n) max_exact).
Proof.
  unfold displayed_Z. rewrite displayed_clicks.
  apply to_Z_of_Z. pose proof max_exact_pos. lia.
Qed.

(** After every user event the page is freshly rendered. *)
Lemma session_shape (us : list user_event) :
  exists k : Z, 0 <= k <= max_exact /\ session us = pending_page (of_Z k) 0.
Proof.
  pose proof max_exact_pos as Hpos.
  unfold session.
  assert (G : forall us k, 0 <= k <= max_exact ->
            exists k', 0 <= k' <= max_exact /\
              fold_left user_step us (pending_page (of_Z k) 0)
              = pending_page (of_Z k') 0).
  { clear us. induction us as [| [ev |] us IH]; intros k Hk.
    - exists k. split; [assumption | reflexivity].
    - cbn [fold_left user_step]. rewrite activate_page, incr_of_Z by assumption.
      apply IH. lia.
    - cbn [fold_left user_step]. rewrite load_page. apply (IH 0). lia. }
  rewrite load_page. apply (G us 0). lia.
Qed.

Lemma session_reload (us : list user_event) : session (us ++ [UReload]) = load.
Proof. unfold session. now rewrite fold_left_app. Qed.

(** Separately rendered activations, from any freshly rendered page. *)
Lemma iter_activate_page (ev : mouse_event) (n : N) (c : number) :
  N.iter n (activate ev) (pending_page c 0) = pending_page (N.iter n incr c) 0.
Proof.
  induction n as [| n IH] using N.peano_ind.
  - reflexivity.
  - now rewrite !N.iter_succ, IH, activate_page.
Qed.

Lemma N_iter_incr_from (k : Z) (n : N) :
  0 <= k <= max_exact ->
  N.iter n incr (of_Z k) = of_Z (Z.min (k + Z.of_N n) max_exact).
Proof.
  intros Hk. induction n as [| n IH] using N.peano_ind.
  - cbn [N.iter]. f_equal. lia.
  - rewrite N.iter_succ, IH, incr_of_Z by lia. f_equal. lia.
Qed.

Example four_clicks : displayed_Z (clicks ev0 4) = Some 4.
Proof. reflexivity. Qed.

Example batched_clicks :
  displayed_Z (play [Click ev0; Click ev0; Click ev0] load) = Some 0 /\
  displayed_Z (rerender (play [Click ev0; Click ev0; Click ev0] load)) = Some 3.
Proof. split; reflexivity. Qed.

End Runs.

(** ** Replacing one node leaves the rest of the tree alone *)

Section Frame.

Lemma subtree_replace_at (q : list nat) (new : vnode) :
  forall (p : list nat) (t : vnode),
    ~ p `prefix_of` q -> ~ q `prefix_of` p ->
    subtree p (replace_at q new t) = subtree p t.
Proof.
  induction q as [| i q IH]; intros p t Hpq Hqp.
  - exfalso. apply Hqp, prefix_nil.
  - destruct p as [| j p]; [exfalso; apply Hpq, prefix_nil |].
    assert (Hcs : forall cs : list vnode,
               match alter (replace_at q new) i cs !! j with
               | Some c => subtree p c
               | None => None
               end
               = match cs !! j with
                 | Some c => subtree p c
                 | None => None
                 end).
    { intros cs. destruct (decide (i = j)) as [<- | Hij].
      - rewrite list_lookup_alter_eq.
        destruct (cs !! i) as [c |]; [| reflexivity].
        cbn. apply IH.
        + intros H. apply Hpq. now apply prefix_cons.
        + intros H. apply Hqp. now apply prefix_cons.
      - now rewrite list_lookup_alter_ne. }
    destruct t as [s | n | tag props cs | cs]; cbn; try reflexivity; apply Hcs.
Qed.

(** The label is the only place where the count occurs. *)
Lemma view_replace (c c' : number) :
  view c' = replace_at label_path (VNumber c') (view c).
Proof. reflexivity. Qed.

Lemma subtree_below_label (c : number) (i : nat) (rest : list nat) :
  subtree (label_path ++ i :: rest) (view c) = None.
Proof. destruct i; reflexivity. Qed.

Lemma view_frame (c c' : number) (path : list nat) :
  ~ path `prefix_of` label_path ->
  subtree path (view c') = subtree path (view c).
Proof.
  intros Hp.
  destruct (decide (label_path `prefix_of` path)) as [[rest ->] | Hq].
  - destruct rest as [| i rest].
    + exfalso. apply Hp. now rewrite app_nil_r.
    + now rewrite !subtree_below_label.
  - rewrite (view_replace c c'). now apply subtree_replace_at.
Qed.

End Frame.

(** ** The counter: claims *)

(** C1, as stated, fails: after 2^53 + 1 activations the button shows
    2^53, not the number of clicks. *)
Lemma C1_counterexample :
  displayed_Z (clicks ev0 9007199254740993%N) <> Some (Z.of_N 9007199254740993%N).
Proof. rewrite displayed_Z_clicks. intros [=]. Qed.

(** C1, amended: for every click count n with 0 <= n <= 2^53, after n
    activations from a load the displayed value equals n. *)
Theorem C1_displayed_equals_clicks (ev : mouse_event) (n : N) :
  Z.of_N n <= max_exact ->
  displayed_Z (clicks ev n) = Some (Z.of_N n).
Proof. intros H. rewrite displayed_Z_clicks. f_equal. lia. Qed.

(** An instance: three clicks show 3. *)
Lemma C1_displayed_equals_clicks_witness :
  Z.of_N 3 <= max_exact /\ displayed_Z (clicks ev0 3) = Some 3.
Proof.
  split; [vm_compute; discriminate |].
  apply (C1_displayed_equals_clicks ev0 3%N). vm_compute; discriminate.
Defined.

(** C2: in every reachable state the displayed value is a non-negative
    integer, and it does not decrease across a click, a re-render, or a full
    activation. *)
Theorem C2_nonnegative_monotone (s : page) (ev : mouse_event) :
  reachable s ->
  exists (c : number) (k : Z),
    displayed s = Some c /\ to_Z c = Some k /\ 0 <= k /\ leb zero c = true /\
    forall s' : page,
      s' = activate ev s \/ s' = dispatch_click ev s \/ s' = rerender s ->
      exists (c' : number) (k' : Z),
        displayed s' = Some c' /\ to_Z c' = Some k' /\ k <= k' /\ leb c c' = true.
Proof.
  intros Hs. pose proof max_exact_pos as Hpos.
  destruct (reachable_shape s Hs) as (k & m & Hk & ->).
  exists (of_Z k), k. rewrite displayed_page.
  split; [reflexivity |]. split; [now apply to_Z_of_Z |]. split; [lia |].
  split; [apply (leb_of_Z 0 k); lia |].
  assert (Hrender : forall j : nat,
             exists (c' : number) (k' : Z),
               displayed (rerender (pending_page (of_Z k) j)) = Some c' /\
               to_Z c' = Some k' /\ k <= k' /\ leb (of_Z k) c' = true).
  { intros j. rewrite render_page, nat_iter_incr, displayed_page by assumption.
    exists (of_Z (Z.min (k + Z.of_nat j) max_exact)), (Z.min (k + Z.of_nat j) max_exact).
    split; [reflexivity |]. split; [apply to_Z_of_Z; lia |].
    split; [lia | apply leb_of_Z; lia]. }
  intros s' [-> | [-> | ->]].
  - unfold activate. rewrite click_page. apply Hrender.
  - rewrite click_page, displayed_page. exists (of_Z k), k.
    split; [reflexivity |]. split; [now apply to_Z_of_Z |].
    split; [lia | apply leb_of_Z; lia].
  - apply Hrender.
Qed.

(** An instance: the freshly loaded page. *)
Lemma C2_nonnegative_monotone_witness :
  exists (c : number) (k : Z),
    displayed load = Some c /\ to_Z c = Some k /\ 0 <= k /\ leb zero c = true /\
    forall s' : page,
      s' = activate ev0 load \/ s' = dispatch_click ev0 load \/ s' = rerender load ->
      exists (c' : number) (k' : Z),
        displayed s' = Some c' /\ to_Z c' = Some k' /\ k <= k' /\ leb c c' = true.
Proof. apply (C2_nonnegative_monotone load ev0). constructor. Defined.

(** C3: a load shows 0; a reload shows 0 whatever happened before; one
    click after a load shows 1, three more show 4, and a reload after them
    shows 0 again. *)
Theorem C3_load_and_reload :
  displayed load = Some zero /\
  (forall us : list user_event, displayed (session (us ++ [UReload])) = Some zero) /\
  forall e1 e2 e3 e4 : mouse_event,
    displayed_Z (session []) = Some 0 /\
    displayed_Z (session [UClick e1]) = Some 1 /\
    displayed_Z (session [UClick e1; UClick e2; UClick e3; UClick e4]) = Some 4 /\
    displayed_Z (session [UClick e1; UClick e2; UClick e3; UClick e4; UReload]) = Some 0.
Proof.
  split; [reflexivity |]. split.
  - intros us. now rewrite session_reload.
  - intros e1 e2 e3 e4. repeat split; reflexivity.
Qed.

(** C4, as stated, fails: once the counter holds 2^53 a further
    activation leaves it at 2^53 instead of giving the value plus one. *)
Lemma C4_counterexample :
  displayed_Z (clicks ev0 9007199254740992%N) = Some 9007199254740992 /\
  displayed_Z (activate ev0 (clicks ev0 9007199254740992%N)) <> Some (9007199254740992 + 1).
Proof.
  split; [now rewrite displayed_Z_clicks |].
  rewrite activate_clicks, displayed_Z_clicks. intros [=].
Qed.

(** C4, amended: the increment takes no inputs (the event payload is
    ignored), never fails (the handler is always found and the new value is
    again an integer), and its result is the current counter value plus one
    while that value is below 2^53; at 2^53 the value stays 2^53. *)
Theorem C4_increment_total (us : list user_event) (ev ev' : mouse_event) :
  activate ev (session us) = activate ev' (session us) /\
  is_Some (onClick_of (screen (session us))) /\
  exists k : Z,
    displayed_Z (session us) = Some k /\ 0 <= k <= max_exact /\
    displayed (activate ev (session us)) = Some (add (of_Z k) one) /\
    displayed_Z (activate ev (session us)) = Some (Z.min (k + 1) max_exact).
Proof.
  destruct (session_shape us) as (k & Hk & ->).
  split; [now rewrite !activate_page |].
  split; [now eexists |].
  exists k. rewrite activate_page. unfold displayed_Z. rewrite !displayed_page.
  split; [now apply to_Z_of_Z |]. split; [assumption |].
  split; [reflexivity |].
  rewrite incr_of_Z by assumption. apply to_Z_of_Z.
  pose proof max_exact_pos. lia.
Qed.

(** C8, as stated, fails: on the page that shows 2^53 - 1, two clicks
    processed before one re-render raise the count to 2^53, not by one
    each. *)
Lemma C8_counterexample :
  displayed_Z (clicks ev0 9007199254740991%N) = Some 9007199254740991 /\
  click_count [Click ev0; Click ev0] = 2%N /\
  displayed_Z (rerender (play [Click ev0; Click ev0] (clicks ev0 9007199254740991%N)))
  <> Some (9007199254740991 + 2).
Proof.
  split; [now rewrite displayed_Z_clicks |]. split; [reflexivity |].
  rewrite clicks_page, N_iter_incr, play_page.
  replace (Z.min (Z.of_N 9007199254740991) max_exact) with 9007199254740991
    by reflexivity.
  vm_compute. intros [=].
Qed.

(** C8, amended: however clicks and re-renders interleave on a reachable
    page, the page after the final re-render is the page that the same
    number of separately rendered activations produce, so the updater runs
    once per click on the previous value and no click is lost to a stale
    read; and as long as the resulting count does not exceed 2^53, every
    click, pending or new, has raised the displayed count by exactly one. *)
Theorem C8_no_lost_update (p : page) (es : list event) (ev : mouse_event) :
  reachable p ->
  rerender (play es p) = N.iter (click_count es) (activate ev) (rerender p) /\
  rerender (play es load) = clicks ev (click_count es) /\
  displayed (rerender (play es load)) = Some (N.iter (click_count es) incr zero) /\
  exists k : Z,
    displayed_Z p = Some k /\
    (k + Z.of_nat (length (queue (fiber p))) + Z.of_N (click_count es) <= max_exact ->
     displayed_Z (rerender (play es p))
     = Some (k + Z.of_nat (length (queue (fiber p))) + Z.of_N (click_count es))).
Proof.
  intros Hp. pose proof max_exact_pos as Hpos.
  assert (E : rerender (play es load) = clicks ev (click_count es)).
  { rewrite load_page, play_page, clicks_page.
    change (N.of_nat 0) with 0%N. now rewrite N.add_0_r. }
  destruct (reachable_shape p Hp) as (k & m & Hk & ->).
  split; [| split; [exact E | split]].
  - rewrite play_page, render_page, iter_activate_page, nat_iter_N.
    now rewrite N.iter_add.
  - rewrite E. now rewrite clicks_page, displayed_page.
  - exists k. unfold displayed_Z at 1. rewrite displayed_page.
    split; [now apply to_Z_of_Z |].
    cbn [pending_page fiber queue]. rewrite repeat_length. intros H.
    rewrite play_page, N_iter_incr_from by assumption.
    unfold displayed_Z. rewrite displayed_page, to_Z_of_Z by lia.
    f_equal. lia.
Qed.

(** An instance: two clicks, a re-render, one more click, from a load. *)
Lemma C8_no_lost_update_witness :
  rerender (play [Click ev0; Click ev0; Render; Click ev0] load)
  = N.iter (click_count [Click ev0; Click ev0; Render; Click ev0])
      (activate ev0) (rerender load) /\
  displayed_Z (rerender (play [Click ev0; Click ev0; Render; Click ev0] load))
  = Some 3.
Proof.
  destruct (C8_no_lost_update load [Click ev0; Click ev0; Render; Click ev0] ev0)
    as (H1 & _ & _ & k & Hk & H2); [constructor |].
  split; [exact H1 | reflexivity].
Defined.

(** C9: the count is a double; on the counts the page can hold, [count + 1]
    is the exact successor exactly when count < 2^53, and the displayed
    value equals the click count whenever that count is at most 2^53. *)
Theorem C9_exact_up_to_2_53 (k : Z) (n : N) (ev : mouse_event) :
  0 <= k <= max_exact ->
  Z.of_N n <= max_exact ->
  (to_Z (incr (of_Z k)) = Some (k + 1) <-> k < max_exact) /\
  incr (of_Z max_exact) = of_Z max_exact /\
  displayed_Z (clicks ev n) = Some (Z.of_N n).
Proof.
  intros Hk Hn. pose proof max_exact_pos as Hpos. split; [| split].
  - rewrite incr_of_Z, to_Z_of_Z by lia. split.
    + intros [=]. lia.
    + intros H. f_equal. lia.
  - reflexivity.
  - rewrite displayed_Z_clicks. f_equal. lia.
Qed.

(** An instance: the count 41 and five clicks. *)
Lemma C9_exact_up_to_2_53_witness :
  (to_Z (incr (of_Z 41)) = Some (41 + 1) <-> 41 < max_exact) /\
  incr (of_Z max_exact) = of_Z max_exact /\
  displayed_Z (clicks ev0 5) = Some (Z.of_N 5).
Proof.
  apply (C9_exact_up_to_2_53 41 5%N ev0).
  - split; vm_compute; discriminate.
  - vm_compute; discriminate.
Defined.

(** C10: an activation replaces the number in the button label and
    nothing else: the new screen is the old one with that leaf replaced, and
    every subtree that does not contain the leaf (both logo links with their
    attributes, the heading, the two paragraphs, the label text, the click
    handler) is the same before and after. *)
Theorem C10_only_label_changes (p : page) (ev : mouse_event) :
  reachable p ->
  (exists c' : number,
     displayed (activate ev p) = Some c' /\
     screen (activate ev p) = replace_at label_path (VNumber c') (screen p)) /\
  (forall path : list nat,
     ~ path `prefix_of` label_path ->
     subtree path (screen (activate ev p)) = subtree path (screen p)) /\
  (forall path : list nat,
     props_of <$> subtree path (screen (activate ev p))
     = props_of <$> subtree path (screen p)) /\
  Forall (fun path => is_Some (subtree path (screen p)) /\
                      subtree path (screen (activate ev p)) = subtree path (screen p))
    [ [0; 0]; [0; 1]; [1]; [2; 0]; [2; 1]; [2; 2; 0] ]%nat.
Proof.
  intros Hp. destruct (reachable_shape p Hp) as (k & m & Hk & ->).
  unfold activate. rewrite click_page, render_page.
  set (c' := Nat.iter (S m) incr (of_Z k)).
  cbn [screen pending_page].
  split; [| split; [| split]].
  - exists c'. split; [reflexivity | apply view_replace].
  - intros path Hpath. now apply view_frame.
  - intros path.
    destruct (decide (path `prefix_of` label_path)) as [Hpre | Hpre].
    + destruct Hpre as [rest E].
      destruct path as [| [| [| [| i]]] [| [| [| [| j]]] [| [| [| l]] [| x path]]]];
        try discriminate E; reflexivity.
    + now rewrite (view_frame (of_Z k) c').
  - repeat constructor; now eexists.
Qed.

(** An instance: the first click after a load. *)
Lemma C10_only_label_changes_witness :
  exists c' : number,
    displayed (activate ev0 load) = Some c' /\
    screen (activate ev0 load) = replace_at label_path (VNumber c') (screen load).
Proof. apply (C10_only_label_changes load ev0). constructor. Defined.

(** ** Running steps and jobs *)

Section Steps.

Local Open Scope nat_scope.

Variable ev : push_event.

(** Only the outcomes at the positions of the job's own steps matter. *)
Lemma run_steps_ext (o o' : oracle) (jid : string) (ss : list step) :
  forall (i : nat) (r : runner),
    (forall k, k < length ss -> o jid (i + k) = o' jid (i + k)) ->
    run_steps ev o jid i ss r = run_steps ev o' jid i ss r.
Proof.
  induction ss as [| s ss IH]; intros i r H; [reflexivity |].
  cbn [run_steps].
  assert (E : o jid i = o' jid i).
  { specialize (H 0). rewrite Nat.add_0_r in H. apply H. cbn. lia. }
  rewrite E.
  destruct (if o' jid i then exec_step ev s r else None) as [r' |]; [| reflexivity].
  rewrite (IH (S i) r'); [reflexivity |].
  intros k Hk. replace (S i + k) with (i + S k) by lia. apply H. cbn. lia.
Qed.

(** Every entry of a job's trace carries the job's id. *)
Lemma run_steps_trace (o : oracle) (jid : string) (ss : list step) :
  forall (i : nat) (r : runner),
    Forall (fun e => e.1 = jid) (run_steps ev o jid i ss r).1.2.
Proof.
  induction ss as [| s ss IH]; intros i r; cbn [run_steps]; [constructor |].
  destruct (if o jid i then exec_step ev s r else None) as [r' |].
  - specialize (IH (S i) r').
    destruct (run_steps ev o jid (S i) ss r') as [[ok tr] r''].
    cbn in *. now constructor.
  - cbn. repeat constructor.
Qed.

(** A job that succeeds had every step succeed. *)
Lemma run_steps_ok (o : oracle) (jid : string) (ss : list step) :
  forall (i : nat) (r : runner),
    (run_steps ev o jid i ss r).1.1 = true ->
    forall k, k < length ss -> o jid (i + k) = true.
Proof.
  induction ss as [| s ss IH]; intros i r Hok k Hk; [cbn in Hk; lia |].
  cbn [run_steps] in Hok.
  destruct (o jid i) eqn:Ho; [| discriminate Hok].
  destruct (exec_step ev s r) as [r' |]; [| discriminate Hok].
  specialize (IH (S i) r').
  destruct (run_steps ev o jid (S i) ss r') as [[ok tr] r''].
  cbn in Hok. destruct k as [| k].
  - now rewrite Nat.add_0_r.
  - replace (i + S k) with (S i + k) by lia. apply IH; [exact Hok |].
    cbn in Hk. lia.
Qed.

(** A failing step fails the job, and no later step starts. *)
Lemma run_steps_halt (o : oracle) (jid : string) (ss : list step) :
  forall (i : nat) (r : runner) (k : nat),
    k < length ss -> o jid (i + k) = false ->
    (run_steps ev o jid i ss r).1.1 = false /\
    length (run_steps ev o jid i ss r).1.2 <= k + 1.
Proof.
  induction ss as [| s ss IH]; intros i r k Hk Ho; [cbn in Hk; lia |].
  cbn [run_steps].
  destruct k as [| k].
  - rewrite Nat.add_0_r in Ho. rewrite Ho. cbn. split; [reflexivity | lia].
  - destruct (if o jid i then exec_step ev s r else None) as [r' |].
    + destruct (IH (S i) r' k) as [H1 H2];
        [cbn in Hk; lia | now replace (S i + k) with (i + S k) by lia |].
      destruct (run_steps ev o jid (S i) ss r') as [[ok tr] r''].
      cbn in *. split; [assumption | lia].
    + cbn. split; [reflexivity | lia].
Qed.

Lemma run_job_ext (o o' : oracle) (acc : run_state) (j : job) :
  (forall k, k < length (steps j) -> o (job_id j) k = o' (job_id j) k) ->
  run_job ev o acc j = run_job ev o' acc j.
Proof.
  intros H. unfold run_job.
  now rewrite (run_steps_ext o o' (job_id j) (steps j) 0 _ H).
Qed.

End Steps.

(** ** The run of [deploy.yml] *)

Section DeployRun.

Local Open Scope nat_scope.

Variable sha1 : string.
Variable o : oracle.
Variable pages : option content.

Local Abbreviation ev := (Push "refs/heads/main" sha1).

(** The two jobs in sequence: deploy starts exactly when build succeeded. *)
Lemma deploy_yml_run :
  run_workflow deploy_yml ev o pages
  = Some
      (let '(okb, trb, rb) :=
         run_steps ev o "build" 0 (steps build_job) (Runner ∅ ∅ pages) in
       if okb then
         let '(okd, trd, rd) :=
           run_steps ev o "deploy" 0 (steps deploy_job) (fresh_runner rb) in
         RunState [("build", Success); ("deploy", if okd then Success else Failure)]
                  (trb ++ trd) rd
       else RunState [("build", Failure); ("deploy", Skipped)] trb rb).
Proof.
  unfold run_workflow.
  change (triggered deploy_yml ev) with true. cbv iota.
  cbn [jobs deploy_yml fold_left]. f_equal.
  unfold run_job at 2.
  change (fresh_runner (machine (initial pages))) with (Runner ∅ ∅ pages).
  cbn [needs build_job forallb job_if if_holds andb job_id conclusions trace
       initial app].
  destruct (run_steps ev o "build" 0 (steps build_job) (Runner ∅ ∅ pages))
    as [[okb trb] rb].
  unfold run_job.
  cbn [needs deploy_job forallb job_if conclusions trace machine job_id].
  destruct okb; [| reflexivity].
  replace (if_holds ev (Some (EEq (EContext "github.ref") (EString "refs/heads/main"))))
    with true by (vm_compute; reflexivity).
  reflexivity.
Qed.

End DeployRun.

Section DeployFacts.

Local Open Scope nat_scope.

Lemma triggered_main (ev : push_event) :
  triggered deploy_yml ev = true <-> ref ev = "refs/heads/main".
Proof.
  unfold triggered. cbn [on_push_branches deploy_yml existsb].
  rewrite orb_false_r. apply String.eqb_eq.
Qed.

(** Only the publishing action touches the published branch. *)
Lemma exec_step_pages (ev : push_event) (s : step) (r r' : runner) :
  uses_is s "peaceiris/actions-gh-pages@v4" = false ->
  exec_step ev s r = Some r' -> gh_pages r' = gh_pages r.
Proof.
  intros Hs. unfold exec_step. rewrite Hs.
  repeat case_match; intros [= <-]; reflexivity.
Qed.

Lemma run_steps_pages (ev : push_event) (o : oracle) (jid : string) (ss : list step) :
  Forall (fun s => uses_is s "peaceiris/actions-gh-pages@v4" = false) ss ->
  forall (i : nat) (r : runner),
    gh_pages (run_steps ev o jid i ss r).2 = gh_pages r.
Proof.
  induction 1 as [| s ss Hs _ IH]; intros i r; [reflexivity |].
  cbn [run_steps].
  destruct (o jid i); [| reflexivity].
  destruct (exec_step ev s r) as [r' |] eqn:E; [| reflexivity].
  specialize (IH (S i) r').
  destruct (run_steps ev o jid (S i) ss r') as [[ok tr] r''].
  cbn in *. rewrite IH. now apply (exec_step_pages ev s).
Qed.

Lemma lookup_job_trace (jid other : string) (tr : list (string * string))
    (a : nat) (s : string) :
  Forall (fun e => e.1 = jid) tr -> other ≠ jid -> tr !! a ≠ Some (other, s).
Proof.
  intros Hall Hne Hl.
  apply (Forall_lookup_1 _ _ _ _ Hall) in Hl. cbn in Hl. congruence.
Qed.

(** Spot checks of whole runs. *)
Example run_all_ok :
  option_map (fun r => (conclusions r, gh_pages (machine r)))
    (run_workflow deploy_yml push_main all_ok None)
  = Some ([("build", Success); ("deploy", Success)], Some (SiteBundle "abc123")).
Proof. vm_compute. reflexivity. Qed.

Example run_build_step_fails :
  option_map (fun r => (conclusions r, trace r, gh_pages (machine r)))
    (run_workflow deploy_yml push_main
       (per_job [true; true; true; false; true] [true; true]) None)
  = Some ([("build", Failure); ("deploy", Skipped)],
          [("build", "Checkout repo"); ("build", "Setup Node");
           ("build", "Install dependencies"); ("build", "Build project")],
          None).
Proof. vm_compute. reflexivity. Qed.

Example run_other_branch :
  run_workflow deploy_yml (Push "refs/heads/dev" "abc123") all_ok None = None.
Proof. reflexivity. Qed.

(** [==] ignores case, the branch filter does not. *)
Example upper_case_branch :
  if_holds (Push "refs/heads/MAIN" "abc123") (job_if deploy_job) = true /\
  triggered deploy_yml (Push "refs/heads/MAIN" "abc123") = false.
Proof. split; reflexivity. Qed.

End DeployFacts.

(** ** The pipeline and the base path: claims *)

(** C5: the workflow runs only for pushes to [main]; the deploy job
    starts only if the build job succeeded, and then only after every build
    step; a failing build step fails the build, stops the steps after it,
    and the deploy job is skipped, so nothing is published. *)
Theorem C5_deploy_gated (ev : push_event) (o : oracle) (pages : option content) :
  (ref ev ≠ "refs/heads/main" -> run_workflow deploy_yml ev o pages = None) /\
  forall r : run_state,
    run_workflow deploy_yml ev o pages = Some r ->
    ref ev = "refs/heads/main" /\
    ((exists a s, trace r !! a = Some ("deploy", s)) ->
     conclusion_of "build" (conclusions r) = Some Success /\
     forall i, (i < 5)%nat -> o "build" i = true) /\
    (forall i, (i < 5)%nat -> o "build" i = false ->
       conclusion_of "build" (conclusions r) = Some Failure /\
       conclusion_of "deploy" (conclusions r) = Some Skipped /\
       (forall a s, trace r !! a ≠ Some ("deploy", s)) /\
       (length (trace r) <= i + 1)%nat /\
       gh_pages (machine r) = pages) /\
    (forall a b sa sb,
       trace r !! a = Some ("deploy", sa) ->
       trace r !! b = Some ("build", sb) -> (b < a)%nat).
Proof.
  split.
  - intros Hne. unfold run_workflow.
    destruct (triggered deploy_yml ev) eqn:Ht; [| reflexivity].
    apply triggered_main in Ht. contradiction.
  - intros r Hrun.
    assert (Href : ref ev = "refs/heads/main").
    { apply triggered_main. unfold run_workflow in Hrun.
      destruct (triggered deploy_yml ev); [reflexivity | discriminate]. }
    split; [exact Href |].
    destruct ev as [rf sh]. cbn [ref] in Href. subst rf.
    rewrite deploy_yml_run in Hrun.
    set (ev := Push "refs/heads/main" sh) in *.
    pose proof (run_steps_trace ev o "build" (steps build_job) 0 (Runner ∅ ∅ pages)) as Htb.
    pose proof (run_steps_ok ev o "build" (steps build_job) 0 (Runner ∅ ∅ pages)) as Hokb.
    pose proof (run_steps_halt ev o "build" (steps build_job) 0 (Runner ∅ ∅ pages)) as Hhalt.
    pose proof (run_steps_pages ev o "build" (steps build_job)) as Hpg.
    specialize (Hpg ltac:(repeat constructor) 0%nat (Runner ∅ ∅ pages)).
    destruct (run_steps ev o "build" 0 (steps build_job) (Runner ∅ ∅ pages))
      as [[okb trb] rb].
    cbn [fst snd gh_pages] in *.
    destruct okb.
    + pose proof (run_steps_trace ev o "deploy" (steps deploy_job) 0 (fresh_runner rb)) as Htd.
      destruct (run_steps ev o "deploy" 0 (steps deploy_job) (fresh_runner rb))
        as [[okd trd] rd].
      cbn [fst snd] in *. injection Hrun as <-. cbn [trace conclusions machine].
      split; [| split].
      * intros _. split; [reflexivity |].
        intros i Hi. apply (Hokb eq_refl i). exact Hi.
      * intros i Hi Ho. destruct (Hhalt i Hi Ho) as [Hf _]. discriminate Hf.
      * intros a b sa sb Ha Hb.
        apply lookup_app_Some in Ha as [Ha | [Hla Ha]];
          [now apply (lookup_job_trace "build" "deploy") in Ha |].
        apply lookup_app_Some in Hb as [Hb | [Hlb Hb]];
          [| now apply (lookup_job_trace "deploy" "build") in Hb].
        apply lookup_lt_Some in Hb. lia.
    + injection Hrun as <-. cbn [trace conclusions machine].
      split; [| split].
      * intros (a & s & Hs). now apply (lookup_job_trace "build" "deploy") in Hs.
      * intros i Hi Ho. destruct (Hhalt i Hi Ho) as [_ Hlen].
        repeat split; try reflexivity; try assumption.
        intros a s Hs. now apply (lookup_job_trace "build" "deploy") in Hs.
      * intros a b sa sb Ha _.
        now apply (lookup_job_trace "build" "deploy") in Ha.
Qed.

(** An instance: a push to [main] on which every step succeeds. *)
Lemma C5_deploy_gated_witness :
  exists r : run_state,
    run_workflow deploy_yml push_main all_ok None = Some r /\
    ref push_main = "refs/heads/main" /\
    forall a b sa sb,
      trace r !! a = Some ("deploy", sa) ->
      trace r !! b = Some ("build", sb) -> (b < a)%nat.
Proof.
  eexists. split; [vm_compute; reflexivity |].
  destruct (C5_deploy_gated push_main all_ok None) as [_ H].
  edestruct H as (Href & _ & _ & Hord); [vm_compute; reflexivity |].
  split; [exact Href | exact Hord].
Defined.

(** C6: when the build steps pass, the content of [./dist] is stored as
    the artifact [production-files]; the deploy job asks for an artifact of
    that same name, a publish step is always preceded by the download step,
    and what a passing deploy publishes is the site the build produced. *)
Theorem C6_artifact_handoff (ev : push_event) (o : oracle)
    (pages : option content) (r : run_state) :
  run_workflow deploy_yml ev o pages = Some r ->
  (forall i, (i < 5)%nat -> o "build" i = true) ->
  artifacts (machine r) !! "production-files" = Some (SiteBundle (sha ev)) /\
  (exists up down pub : step,
     steps build_job !! 4%nat = Some up /\
     steps deploy_job !! 0%nat = Some down /\
     steps deploy_job !! 1%nat = Some pub /\
     uses up = Some "actions/upload-artifact@v4" /\
     input "name" (with_ up) = Some "production-files" /\
     input "path" (with_ up) = Some "./dist" /\
     uses down = Some "actions/download-artifact@v4" /\
     input "name" (with_ down) = input "name" (with_ up) /\
     uses pub = Some "peaceiris/actions-gh-pages@v4" /\
     input "publish_dir" (with_ pub) = input "path" (with_ down)) /\
  (forall a, trace r !! a = Some ("deploy", "Deploy to GitHub Pages") ->
     exists b, (b < a)%nat /\ trace r !! b = Some ("deploy", "Download artifact")) /\
  (gh_pages (machine r) = Some (SiteBundle (sha ev)) \/ gh_pages (machine r) = pages) /\
  ((forall i, (i < 2)%nat -> o "deploy" i = true) ->
   gh_pages (machine r) = Some (SiteBundle (sha ev)) /\
   conclusions r = [("build", Success); ("deploy", Success)]).
Proof.
  intros Hrun Hbuild.
  assert (Href : ref ev = "refs/heads/main").
  { apply triggered_main. unfold run_workflow in Hrun.
    destruct (triggered deploy_yml ev); [reflexivity | discriminate]. }
  destruct ev as [rf sh]. cbn [ref sha] in *. subst rf.
  rewrite deploy_yml_run in Hrun.
  set (o' := per_job [true; true; true; true; true] []).
  assert (Eb : forall k, (k < length (steps build_job))%nat ->
                 o "build" (0 + k)%nat = o' "build" (0 + k)%nat).
  { intros k Hk. cbn in Hk. rewrite Hbuild by (cbn; lia).
    do 5 (destruct k as [| k]; [reflexivity |]). lia. }
  rewrite (run_steps_ext _ o o' "build" _ 0 _ Eb) in Hrun.
  assert (Hpass : (forall i, (i < 2)%nat -> o "deploy" i = true) ->
                  o "deploy" 0%nat = true /\ o "deploy" 1%nat = true)
    by (intros H; split; apply H; lia).
  subst o'. clear Eb Hbuild.
  vm_compute in Hrun.
  destruct (o "deploy" 0%nat); [destruct (o "deploy" 1%nat) |];
    injection Hrun as <-;
    cbn [trace machine artifacts gh_pages conclusions];
    (split; [vm_compute; reflexivity |]);
    (split; [do 3 eexists; repeat split; reflexivity |]);
    (split; [intros a Ha;
             do 7 (destruct a as [| a];
                   [first [discriminate Ha
                          | exists 5%nat; split; [lia | reflexivity]] |]);
             discriminate Ha |]);
    (split; [first [left; reflexivity | right; reflexivity] |]);
    intros H; destruct (Hpass H) as [? ?]; try discriminate;
    split; reflexivity.
Qed.

(** An instance: the same push; the published site is the built one. *)
Lemma C6_artifact_handoff_witness :
  exists r : run_state,
    run_workflow deploy_yml push_main all_ok None = Some r /\
    artifacts (machine r) !! "production-files" = Some (SiteBundle "abc123") /\
    gh_pages (machine r) = Some (SiteBundle "abc123").
Proof.
  eexists. split; [vm_compute; reflexivity |].
  edestruct (C6_artifact_handoff push_main all_ok None) as (Ha & _ & _ & _ & Hp);
    [vm_compute; reflexivity | intros i Hi; reflexivity |].
  split; [exact Ha | apply Hp; intros i Hi; reflexivity].
Defined.

(** C7: the one [base] setting of [vite.config.js] is the repository
    name between slashes; it is the path under which GitHub Pages serves the
    site, and every asset reference the build emits starts with it. *)
Theorem C7_base_is_repository_name :
  base vite_config = String.append "/" (String.append repository_name "/") /\
  remote_url
  = String.append "https://github.com/YOUR_USERNAME/"
      (String.append repository_name ".git") /\
  pages_url = String.append "https://YOUR_USERNAME.github.io" (base vite_config) /\
  String.append router_basename "/" = base vite_config /\
  forall file : string,
    String.prefix (String.append "/" (String.append repository_name "/"))
      (asset_url vite_config file) = true /\
    String.append "https://YOUR_USERNAME.github.io" (asset_url vite_config file)
    = String.append pages_url file.
Proof.
  do 4 (split; [reflexivity |]).
  intros file. split; [| reflexivity].
  destruct file; vm_compute; reflexivity.
Qed.

(** ** Further properties of the counter *)

Section CounterMore.

Lemma session_count (us : list user_event) :
  session us
  = pending_page (of_Z (Z.min (Z.of_N (clicks_since_load us)) max_exact)) 0.
Proof.
  pose proof max_exact_pos as Hpos.
  set (count := fun (n : N) (u : user_event) =>
                  match u with
                  | UClick _ => N.succ n
                  | UReload => 0%N
                  end).
  assert (G : forall n : N,
             fold_left user_step us
               (pending_page (of_Z (Z.min (Z.of_N n) max_exact)) 0)
             = pending_page
                 (of_Z (Z.min (Z.of_N (fold_left count us n)) max_exact)) 0).
  { induction us as [| [ev |] us IH]; intros n.
    - reflexivity.
    - cbn [fold_left user_step]. rewrite activate_page, incr_of_Z by lia.
      replace (Z.min (Z.min (Z.of_N n) max_exact + 1) max_exact)
        with (Z.min (Z.of_N (N.succ n)) max_exact) by lia.
      apply IH.
    - cbn [fold_left user_step]. rewrite load_page. apply (IH 0%N). }
  unfold session, clicks_since_load. rewrite load_page. apply (G 0%N).
Qed.

End CounterMore.

(** X1: after n activations from a load the button shows min(n, 2^53),
    for every n: the count is always a finite integer-valued number, never
    NaN or Infinity, and it stops at 2^53. *)
Theorem X1_counter_saturates (ev : mouse_event) (n : N) :
  displayed (clicks ev n) = Some (of_Z (Z.min (Z.of_N n) max_exact)) /\
  displayed_Z (clicks ev n) = Some (Z.min (Z.of_N n) max_exact).
Proof. split; [apply displayed_clicks | apply displayed_Z_clicks]. Qed.

(** X2: after any history of clicks and reloads the button shows the
    number of clicks since the last reload (capped at 2^53), and nothing is
    left pending. *)
Theorem X2_clicks_since_last_reload (us : list user_event) :
  displayed_Z (session us)
  = Some (Z.min (Z.of_N (clicks_since_load us)) max_exact) /\
  queue (fiber (session us)) = [].
Proof.
  rewrite session_count. split; [| reflexivity].
  unfold displayed_Z. rewrite displayed_page. apply to_Z_of_Z.
  pose proof max_exact_pos. lia.
Qed.

(** X3: a click by itself changes nothing on screen: it leaves the tree
    and the stored value as they are and adds exactly one pending update. *)
Theorem X3_click_only_enqueues (p : page) (ev : mouse_event) :
  reachable p ->
  screen (dispatch_click ev p) = screen p /\
  displayed (dispatch_click ev p) = displayed p /\
  memoizedState (fiber (dispatch_click ev p)) = memoizedState (fiber p) /\
  length (queue (fiber (dispatch_click ev p))) = S (length (queue (fiber p))).
Proof.
  intros Hp. destruct (reachable_shape p Hp) as (k & m & _ & ->).
  rewrite click_page. cbn [pending_page screen fiber memoizedState queue].
  rewrite !displayed_page, !repeat_length. repeat split; reflexivity.
Qed.

(** An instance: a click on the freshly loaded page. *)
Lemma X3_click_only_enqueues_witness :
  screen (dispatch_click ev0 load) = screen load /\
  displayed (dispatch_click ev0 load) = displayed load /\
  memoizedState (fiber (dispatch_click ev0 load)) = memoizedState (fiber load) /\
  length (queue (fiber (dispatch_click ev0 load))) = S (length (queue (fiber load))).
Proof. apply (X3_click_only_enqueues load ev0). constructor. Defined.

(** X4: re-rendering is idempotent on every page, reachable or not: a
    render empties the queue, and a second render changes nothing. *)
Theorem X4_rerender_idempotent (p : page) :
  queue (fiber (rerender p)) = [] /\
  rerender (rerender p) = rerender p.
Proof. split; reflexivity. Qed.

(** X5: a re-render of a reachable page raises the shown value by exactly
    the number of pending clicks (capped at 2^53). *)
Theorem X5_render_adds_pending (p : page) :
  reachable p ->
  exists k : Z,
    displayed_Z p = Some k /\
    displayed_Z (rerender p)
    = Some (Z.min (k + Z.of_nat (length (queue (fiber p)))) max_exact).
Proof.
  intros Hp. pose proof max_exact_pos as Hpos.
  destruct (reachable_shape p Hp) as (k & m & Hk & ->).
  exists k. rewrite render_page, nat_iter_incr by assumption.
  unfold displayed_Z. rewrite !displayed_page.
  cbn [pending_page fiber queue]. rewrite repeat_length.
  split; apply to_Z_of_Z; lia.
Qed.

(** An instance: three clicks pending on a loaded page. *)
Lemma X5_render_adds_pending_witness :
  exists k : Z,
    displayed_Z (play [Click ev0; Click ev0; Click ev0] load) = Some k /\
    displayed_Z (rerender (play [Click ev0; Click ev0; Click ev0] load))
    = Some (Z.min (k + Z.of_nat (length (queue (fiber
              (play [Click ev0; Click ev0; Click ev0] load))))) max_exact).
Proof.
  apply (X5_render_adds_pending (play [Click ev0; Click ev0; Click ev0] load)).
  repeat constructor.
Defined.

(** X6: on every reachable page each link that opens a new tab has
    [rel="noreferrer"], each image has an alternative text, and the tree
    holds exactly one event handler: the [onClick] that sits on the button,
    the one a click runs. *)
Theorem X6_links_images_handler (p : page) :
  reachable p ->
  forallb (fun v => safe_link v && has_alt v) (nodes (screen p)) = true /\
  length (List.filter (is_tag "a") (nodes (screen p))) = 2%nat /\
  length (List.filter (is_tag "img") (nodes (screen p))) = 2%nat /\
  handlers (screen p) = ["onClick"] /\
  is_tag "button" <$> subtree button_path (screen p) = Some true /\
  (fun b => map fst (List.filter is_handler (props_of b)))
    <$> subtree button_path (screen p) = Some ["onClick"] /\
  is_Some (onClick_of (screen p)).
Proof.
  intros Hp. destruct (reachable_shape p Hp) as (k & m & _ & ->).
  do 6 (split; [reflexivity |]). now eexists.
Qed.

(** An instance: the page after one activation. *)
Lemma X6_links_images_handler_witness :
  handlers (screen (activate ev0 load)) = ["onClick"] /\
  is_Some (onClick_of (screen (activate ev0 load))).
Proof.
  destruct (X6_links_images_handler (activate ev0 load))
    as (_ & _ & _ & H & _ & _ & Hh); [repeat constructor |].
  split; [exact H | exact Hh].
Defined.

(** ** Further properties of the pipeline *)

Section PipelineMore.

Local Open Scope nat_scope.

Lemma run_workflow_ext (ev : push_event) (o o' : oracle) (pages : option content) :
  (forall k, k < 5 -> o "build" k = o' "build" k) ->
  (forall k, k < 2 -> o "deploy" k = o' "deploy" k) ->
  run_workflow deploy_yml ev o pages = run_workflow deploy_yml ev o' pages.
Proof.
  intros Hb Hd. unfold run_workflow.
  destruct (triggered deploy_yml ev); [| reflexivity].
  cbn [jobs deploy_yml fold_left].
  rewrite (run_job_ext ev o o' _ build_job) by exact Hb.
  rewrite (run_job_ext ev o o' _ deploy_job) by exact Hd.
  reflexivity.
Qed.

Lemma run_triggered (ev : push_event) (o : oracle) (pages : option content)
    (r : run_state) :
  run_workflow deploy_yml ev o pages = Some r -> ref ev = "refs/heads/main".
Proof.
  intros Hrun. apply triggered_main. unfold run_workflow in Hrun.
  destruct (triggered deploy_yml ev); [reflexivity | discriminate].
Qed.

Lemma first_failure_unfold (o : oracle) :
  first_failure o (positions deploy_yml) 0
  = if o "build" 0 then
      if o "build" 1 then
        if o "build" 2 then
          if o "build" 3 then
            if o "build" 4 then
              if o "deploy" 0 then
                if o "deploy" 1 then None else Some 6
              else Some 5
            else Some 4
          else Some 3
        else Some 2
      else Some 1
    else Some 0.
Proof. reflexivity. Qed.

(** The whole run, read off the first step that fails. *)
Lemma run_summary (ev : push_event) (o : oracle) (pages : option content)
    (r : run_state) :
  run_workflow deploy_yml ev o pages = Some r ->
  trace r
  = take (match first_failure o (positions deploy_yml) 0 with
          | Some i => S i
          | None => 7
          end) (planned deploy_yml) /\
  conclusions r
  = match first_failure o (positions deploy_yml) 0 with
    | None => [("build", Success); ("deploy", Success)]
    | Some i => if i <? 5
                then [("build", Failure); ("deploy", Skipped)]
                else [("build", Success); ("deploy", Failure)]
    end /\
  artifacts (machine r)
  = match first_failure o (positions deploy_yml) 0 with
    | Some i => if i <? 5 then ∅ else {["production-files" := SiteBundle (sha ev)]}
    | None => {["production-files" := SiteBundle (sha ev)]}
    end /\
  gh_pages (machine r)
  = match first_failure o (positions deploy_yml) 0 with
    | None => Some (SiteBundle (sha ev))
    | Some _ => pages
    end.
Proof.
  intros Hrun. pose proof (run_triggered ev o pages r Hrun) as Href.
  destruct ev as [rf sh]. cbn [ref sha] in *. subst rf.
  rewrite (run_workflow_ext _ o
             (per_job [o "build" 0; o "build" 1; o "build" 2; o "build" 3; o "build" 4]
                      [o "deploy" 0; o "deploy" 1])) in Hrun.
  - rewrite first_failure_unfold.
    destruct (o "build" 0);
      [destruct (o "build" 1);
       [destruct (o "build" 2);
        [destruct (o "build" 3);
         [destruct (o "build" 4);
          [destruct (o "deploy" 0);
           [destruct (o "deploy" 1) |] |] |] |] |] |];
      vm_compute in Hrun; injection Hrun as <-;
      repeat split; vm_compute; reflexivity.
  - intros k Hk. do 5 (destruct k as [| k]; [reflexivity |]). lia.
  - intros k Hk. do 2 (destruct k as [| k]; [reflexivity |]). lia.
Qed.

End PipelineMore.

(** X7: a run of [deploy.yml] is determined by the first step that fails
    by itself: the steps started are exactly the planned steps up to and
    including it (all seven when none fails), a failure among the five
    build steps fails the build and skips deploy, a failure in deploy
    leaves the build successful.  No step ever fails for want of something
    an earlier step should have produced. *)
Theorem X7_run_by_first_failure (ev : push_event) (o : oracle)
    (pages : option content) (r : run_state) :
  run_workflow deploy_yml ev o pages = Some r ->
  trace r
  = take (match first_failure o (positions deploy_yml) 0 with
          | Some i => S i
          | None => 7%nat
          end) (planned deploy_yml) /\
  conclusions r
  = match first_failure o (positions deploy_yml) 0 with
    | None => [("build", Success); ("deploy", Success)]
    | Some i => if (i <? 5)%nat
                then [("build", Failure); ("deploy", Skipped)]
                else [("build", Success); ("deploy", Failure)]
    end /\
  trace r `prefix_of` planned deploy_yml.
Proof.
  intros Hrun. destruct (run_summary ev o pages r Hrun) as (Ht & Hc & _ & _).
  split; [exact Ht |]. split; [exact Hc |].
  rewrite Ht. apply prefix_take.
Qed.

(** An instance: the fourth build step, [npm run build], fails. *)
Lemma X7_run_by_first_failure_witness :
  exists r : run_state,
    run_workflow deploy_yml push_main
      (per_job [true; true; true; false; true] [true; true]) None = Some r /\
    trace r = take 4 (planned deploy_yml) /\
    conclusions r = [("build", Failure); ("deploy", Skipped)].
Proof.
  eexists. split; [vm_compute; reflexivity |].
  edestruct (X7_run_by_first_failure push_main
               (per_job [true; true; true; false; true] [true; true]) None)
    as (Ht & Hc & _); [vm_compute; reflexivity |].
  split; [exact Ht | exact Hc].
Defined.

(** X8: the published site changes exactly when the deploy job succeeds,
    and then it is the build of the pushed commit; in every other run the
    previous site is left as it was.  The only artifact a run ever stores
    is [production-files], holding the build of the pushed commit. *)
Theorem X8_publish_iff_deploy_succeeds (ev : push_event) (o : oracle)
    (pages : option content) (r : run_state) :
  run_workflow deploy_yml ev o pages = Some r ->
  (conclusion_of "deploy" (conclusions r) = Some Success ->
   gh_pages (machine r) = Some (SiteBundle (sha ev))) /\
  (conclusion_of "deploy" (conclusions r) ≠ Some Success ->
   gh_pages (machine r) = pages) /\
  (forall (name : string) (c : content),
     artifacts (machine r) !! name = Some c ->
     name = "production-files" /\ c = SiteBundle (sha ev)).
Proof.
  intros Hrun. destruct (run_summary ev o pages r Hrun) as (_ & Hc & Ha & Hp).
  rewrite Hc, Ha, Hp.
  destruct (first_failure o (positions deploy_yml) 0) as [i |].
  - destruct (i <? 5)%nat.
    + split; [intros [=] |]. split; [reflexivity |].
      intros name c H. now rewrite lookup_empty in H.
    + split; [intros [=] |]. split; [reflexivity |].
      intros name c H. apply lookup_singleton_Some in H as [<- <-]. now split.
  - split; [reflexivity |]. split; [intros H; now contradiction H |].
    intros name c H. apply lookup_singleton_Some in H as [<- <-]. now split.
Qed.

(** An instance: the publishing step itself fails; the old site stays. *)
Lemma X8_publish_iff_deploy_succeeds_witness :
  exists r : run_state,
    run_workflow deploy_yml push_main
      (per_job [true; true; true; true; true] [true; false])
      (Some (SiteBundle "old")) = Some r /\
    gh_pages (machine r) = Some (SiteBundle "old").
Proof.
  eexists. split; [vm_compute; reflexivity |].
  edestruct (X8_publish_iff_deploy_succeeds push_main
               (per_job [true; true; true; true; true] [true; false])
               (Some (SiteBundle "old")))
    as (_ & Hkeep & _); [vm_compute; reflexivity |].
  apply Hkeep. vm_compute. discriminate.
Defined.

(** X9: the [if:] guard of the deploy job never decides anything: every
    push that triggers the workflow satisfies it, so in a run the deploy
    job is skipped exactly when the build failed, and the build job is
    never skipped. *)
Theorem X9_if_guard_follows_trigger (ev : push_event) (o : oracle)
    (pages : option content) (r : run_state) :
  run_workflow deploy_yml ev o pages = Some r ->
  triggered deploy_yml ev = true /\
  if_holds ev (job_if deploy_job) = true /\
  (conclusion_of "deploy" (conclusions r) = Some Skipped <->
   conclusion_of "build" (conclusions r) = Some Failure) /\
  conclusion_of "build" (conclusions r) ≠ Some Skipped.
Proof.
  intros Hrun. pose proof (run_triggered ev o pages r Hrun) as Href.
  destruct (run_summary ev o pages r Hrun) as (_ & Hc & _ & _).
  split; [now apply triggered_main |].
  split; [destruct ev as [rf sh]; cbn [ref] in Href; subst rf; reflexivity |].
  rewrite Hc.
  destruct (first_failure o (positions deploy_yml) 0) as [i |];
    [destruct (i <? 5)%nat |];
    (split; [split; intros H; first [discriminate H | reflexivity]
            | intros H; discriminate H]).
Qed.

(** An instance: a push to [main] on which every step succeeds. *)
Lemma X9_if_guard_follows_trigger_witness :
  triggered deploy_yml push_main = true /\
  if_holds push_main (job_if deploy_job) = true.
Proof.
  edestruct (X9_if_guard_follows_trigger push_main all_ok None)
    as (Ht & Hi & _); [vm_compute; reflexivity |].
  split; [exact Ht | exact Hi].
Defined.

(** X10: the click handler does not depend on the render it was created
    in: the handler found on any reachable screen, run on any page, does
    what that page's own handler does.  A stale handler cannot lose or
    duplicate a click. *)
Theorem X10_handler_independent_of_render (p q : page) (h : handler)
    (ev : mouse_event) :
  reachable p -> reachable q ->
  onClick_of (screen q) = Some h ->
  {| fiber := h ev (fiber p); screen := screen p |} = dispatch_click ev p.
Proof.
  intros Hp Hq Hh.
  destruct (reachable_shape p Hp) as (k & m & _ & ->).
  destruct (reachable_shape q Hq) as (k' & m' & _ & ->).
  cbn in Hh. injection Hh as <-. reflexivity.
Qed.

(** An instance: the handler rendered at load, used after three clicks. *)
Lemma X10_handler_independent_of_render_witness :
  exists h : handler,
    onClick_of (screen load) = Some h /\
    {| fiber := h ev0 (fiber (clicks ev0 3)); screen := screen (clicks ev0 3) |}
    = dispatch_click ev0 (clicks ev0 3).
Proof.
  eexists. split; [reflexivity |].
  apply (X10_handler_independent_of_render (clicks ev0 3) load).
  - repeat constructor.
  - constructor.
  - reflexivity.
Defined.

(** X11: while fewer than 2^53 clicks were made since the last reload an
    activation changes the number on screen; from 2^53 clicks on it leaves
    the whole page exactly as it was. *)
Theorem X11_activation_visible_below_cap (us : list user_event) (ev : mouse_event) :
  (Z.of_N (clicks_since_load us) < max_exact ->
   displayed (activate ev (session us)) ≠ displayed (session us)) /\
  (max_exact <= Z.of_N (clicks_since_load us) ->
   activate ev (session us) = session us).
Proof.
  pose proof max_exact_pos as Hpos.
  rewrite session_count, activate_page, incr_of_Z by lia.
  set (n := Z.of_N (clicks_since_load us)). split; intros H.
  - rewrite !displayed_page. intros [= E].
    apply (f_equal to_Z) in E. rewrite !to_Z_of_Z in E by lia.
    injection E as E. lia.
  - do 2 f_equal. lia.
Qed.

(** An instance: the first click after a load is visible. *)
Lemma X11_activation_visible_below_cap_witness :
  displayed (activate ev0 (session [])) ≠ displayed (session []).
Proof.
  apply (X11_activation_visible_below_cap [] ev0). vm_compute. reflexivity.
Defined.
